(** * CONTROL voice / palm assistant: the activation engine of src/app.js

    A shallow embedding of the browser script.  The module-level variables of
    the script are the fields of [World]; every callback the script installs
    (button click, recognition events, animation frames, utterance events,
    timers) is a function [World -> World]; what the script does to the page
    and to the platform services is appended to the [output] trace.  The
    clock ([Date.now()] and the time base of [setTimeout]) is the explicit
    argument [now] of each callback. *)

From Stdlib Require Import ZArith List String Ascii Bool Lia DecimalString.
Import ListNotations.
Open Scope string_scope.
Open Scope Z_scope.

(* ================================================================== *)
(** ** JavaScript string primitives (on ASCII text) *)

(** The double-quote character, for the template strings that embed one. *)
Definition dquote : string := String (ascii_of_nat 34) EmptyString.

(** Truthiness of a string: the empty string is falsy. *)
Definition truthy (s : string) : bool :=
  match s with
  | EmptyString => false
  | String _ _ => true
  end.

(** [text.includes(key)]. *)
Fixpoint includes (text key : string) : bool :=
  String.prefix key text ||
  match text with
  | EmptyString => false
  | String _ rest => includes rest key
  end.

Definition lowerChar (c : ascii) : ascii :=
  let n := nat_of_ascii c in
  if (Nat.leb 65 n && Nat.leb n 90)%bool then ascii_of_nat (n + 32) else c.

(** [s.toLowerCase()], for the letters A-Z. *)
Fixpoint toLowerCase (s : string) : string :=
  match s with
  | EmptyString => EmptyString
  | String c rest => String (lowerChar c) (toLowerCase rest)
  end.

(** White space of [trim]: tab, line feed, vertical tab, form feed,
    carriage return, space. *)
Definition isSpace (c : ascii) : bool :=
  let n := nat_of_ascii c in
  (Nat.leb 9 n && Nat.leb n 13)%bool || Nat.eqb n 32.

Fixpoint trimStart (s : string) : string :=
  match s with
  | EmptyString => EmptyString
  | String c rest => if isSpace c then trimStart rest else s
  end.

Fixpoint trimEnd (s : string) : string :=
  match s with
  | EmptyString => EmptyString
  | String c rest =>
      match trimEnd rest with
      | EmptyString => if isSpace c then EmptyString else String c EmptyString
      | kept => String c kept
      end
  end.

(** [s.trim()]. *)
Definition trim (s : string) : string := trimEnd (trimStart s).

(** Template-literal rendering of an integer. *)
Definition showZ (z : Z) : string := NilZero.string_of_int (Z.to_int z).

(* ================================================================== *)
(** ** State machine constants and data *)

Inductive STATE : Type :=
| UNINITIALIZED
| IDLE
| ACTIVATED
| LISTENING_FOR_COMMAND.

Definition STATE_eqb (a b : STATE) : bool :=
  match a, b with
  | UNINITIALIZED, UNINITIALIZED
  | IDLE, IDLE
  | ACTIVATED, ACTIVATED
  | LISTENING_FOR_COMMAND, LISTENING_FOR_COMMAND => true
  | _, _ => false
  end.

Definition showSTATE (s : STATE) : string :=
  match s with
  | UNINITIALIZED => "UNINITIALIZED"
  | IDLE => "IDLE"
  | ACTIVATED => "ACTIVATED"
  | LISTENING_FOR_COMMAND => "LISTENING_FOR_COMMAND"
  end.

Definition ACTIVATION_COOLDOWN : Z := 5000.
Definition MOTION_THRESHOLD : Z := 3000.
Definition STABLE_THRESHOLD : Z := 400.

(** [ImageData.data]: the colour samples of a frame, each in 0..255. *)
Definition ImageData : Type := list Z.

(** The callbacks the script hands to [setTimeout]. *)
Inductive Timer : Type :=
| ResumeListening                 (* speak, onend / onerror: recognitionPaused = false *)
| ListenAfterGreeting             (* activate: ACTIVATED -> LISTENING_FOR_COMMAND *)
| RestartRecognition              (* restartRecognition *)
| PalmReset (motionLevel : Z)     (* detectMotion: closes over that frame's motionLevel *)
| Nothing.                        (* handleCommand, YouTube branch: empty body *)

(** What the script does to the page and to the platform. *)
Inductive Effect : Type :=
| Log (text : string)                 (* log(text): logEl.textContent, console.log *)
| Console (text : string)             (* console.log / console.error *)
| Status (text className : string)    (* statusEl *)
| CommandListHidden (hidden : bool)   (* commandList.classList *)
| WaveActive (active : bool)          (* waveIndicator.classList *)
| ButtonText (text : string)          (* startBtn.textContent *)
| ButtonDisabled (disabled : bool)    (* startBtn.disabled *)
| Speak (text : string)               (* speechSynthesis.speak(utter) *)
| WindowOpen (url : string)           (* window.open(url, "_blank") *)
| RecognitionStart.                   (* recognition.start() *)

Record World : Type := mkWorld {
  currentState : STATE;
  lastActivationTime : Z;
  userName : string;
  recognition : bool;             (* the SpeechRecognition object and its handlers exist *)
  isRecognitionActive : bool;
  recognitionPaused : bool;
  lastFrame : option ImageData;
  stableFrameCount : Z;
  palmDetectionActive : bool;
  metadataHandler : bool;         (* video.onloadedmetadata is installed *)
  frameLoop : bool;               (* requestAnimationFrame(detectMotion) is pending *)
  timers : list (Z * Timer);      (* pending setTimeout callbacks with their due time *)
  speaking : list string;         (* utterances handed to speechSynthesis, not yet finished *)
  output : list Effect            (* effects so far, oldest first *)
}.

(** The script's top-level initialisers. *)
Definition boot : World :=
  mkWorld UNINITIALIZED 0 "" false false false None 0 false false false [] [] [].

Definition set_currentState (v : STATE) (w : World) : World :=
  mkWorld v (lastActivationTime w) (userName w) (recognition w)
    (isRecognitionActive w) (recognitionPaused w) (lastFrame w)
    (stableFrameCount w) (palmDetectionActive w) (metadataHandler w)
    (frameLoop w) (timers w) (speaking w) (output w).

Definition set_lastActivationTime (v : Z) (w : World) : World :=
  mkWorld (currentState w) v (userName w) (recognition w)
    (isRecognitionActive w) (recognitionPaused w) (lastFrame w)
    (stableFrameCount w) (palmDetectionActive w) (metadataHandler w)
    (frameLoop w) (timers w) (speaking w) (output w).

Definition set_userName (v : string) (w : World) : World :=
  mkWorld (currentState w) (lastActivationTime w) v (recognition w)
    (isRecognitionActive w) (recognitionPaused w) (lastFrame w)
    (stableFrameCount w) (palmDetectionActive w) (metadataHandler w)
    (frameLoop w) (timers w) (speaking w) (output w).

Definition set_recognition (v : bool) (w : World) : World :=
  mkWorld (currentState w) (lastActivationTime w) (userName w) v
    (isRecognitionActive w) (recognitionPaused w) (lastFrame w)
    (stableFrameCount w) (palmDetectionActive w) (metadataHandler w)
    (frameLoop w) (timers w) (speaking w) (output w).

Definition set_isRecognitionActive (v : bool) (w : World) : World :=
  mkWorld (currentState w) (lastActivationTime w) (userName w) (recognition w)
    v (recognitionPaused w) (lastFrame w)
    (stableFrameCount w) (palmDetectionActive w) (metadataHandler w)
    (frameLoop w) (timers w) (speaking w) (output w).

Definition set_recognitionPaused (v : bool) (w : World) : World :=
  mkWorld (currentState w) (lastActivationTime w) (userName w) (recognition w)
    (isRecognitionActive w) v (lastFrame w)
    (stableFrameCount w) (palmDetectionActive w) (metadataHandler w)
    (frameLoop w) (timers w) (speaking w) (output w).

Definition set_lastFrame (v : option ImageData) (w : World) : World :=
  mkWorld (currentState w) (lastActivationTime w) (userName w) (recognition w)
    (isRecognitionActive w) (recognitionPaused w) v
    (stableFrameCount w) (palmDetectionActive w) (metadataHandler w)
    (frameLoop w) (timers w) (speaking w) (output w).

Definition set_stableFrameCount (v : Z) (w : World) : World :=
  mkWorld (currentState w) (lastActivationTime w) (userName w) (recognition w)
    (isRecognitionActive w) (recognitionPaused w) (lastFrame w)
    v (palmDetectionActive w) (metadataHandler w)
    (frameLoop w) (timers w) (speaking w) (output w).

Definition set_palmDetectionActive (v : bool) (w : World) : World :=
  mkWorld (currentState w) (lastActivationTime w) (userName w) (recognition w)
    (isRecognitionActive w) (recognitionPaused w) (lastFrame w)
    (stableFrameCount w) v (metadataHandler w)
    (frameLoop w) (timers w) (speaking w) (output w).

Definition set_metadataHandler (v : bool) (w : World) : World :=
  mkWorld (currentState w) (lastActivationTime w) (userName w) (recognition w)
    (isRecognitionActive w) (recognitionPaused w) (lastFrame w)
    (stableFrameCount w) (palmDetectionActive w) v
    (frameLoop w) (timers w) (speaking w) (output w).

Definition set_frameLoop (v : bool) (w : World) : World :=
  mkWorld (currentState w) (lastActivationTime w) (userName w) (recognition w)
    (isRecognitionActive w) (recognitionPaused w) (lastFrame w)
    (stableFrameCount w) (palmDetectionActive w) (metadataHandler w)
    v (timers w) (speaking w) (output w).

Definition set_timers (v : list (Z * Timer)) (w : World) : World :=
  mkWorld (currentState w) (lastActivationTime w) (userName w) (recognition w)
    (isRecognitionActive w) (recognitionPaused w) (lastFrame w)
    (stableFrameCount w) (palmDetectionActive w) (metadataHandler w)
    (frameLoop w) v (speaking w) (output w).

Definition set_speaking (v : list string) (w : World) : World :=
  mkWorld (currentState w) (lastActivationTime w) (userName w) (recognition w)
    (isRecognitionActive w) (recognitionPaused w) (lastFrame w)
    (stableFrameCount w) (palmDetectionActive w) (metadataHandler w)
    (frameLoop w) (timers w) v (output w).

Definition set_output (v : list Effect) (w : World) : World :=
  mkWorld (currentState w) (lastActivationTime w) (userName w) (recognition w)
    (isRecognitionActive w) (recognitionPaused w) (lastFrame w)
    (stableFrameCount w) (palmDetectionActive w) (metadataHandler w)
    (frameLoop w) (timers w) (speaking w) v.

(** Appends one effect to the trace. *)
Definition emit (e : Effect) (w : World) : World :=
  set_output (output w ++ [e]) w.

(** [setTimeout(cb, delay)] called at time [now]. *)
Definition setTimeout (cb : Timer) (delay now : Z) (w : World) : World :=
  set_timers (timers w ++ [(now + delay, cb)]) w.

(* ================================================================== *)
(** ** Speech output and logging (app.js 32-60) *)

(** [speechSynthesis.speak(utter)]: the utterance joins the platform queue;
    its [onend] / [onerror] handlers run later, as events. *)
Definition speechSynthesis_speak (text : string) (w : World) : World :=
  emit (Speak text) (set_speaking (speaking w ++ [text]) w).

Definition speak (text : string) (w : World) : World :=
  speechSynthesis_speak text (set_recognitionPaused true w).

(** [utter.onend] and [utter.onerror] have the same body. *)
Definition utter_onend (now : Z) (w : World) : World :=
  setTimeout ResumeListening 3000 now w.

Definition utter_onerror (now : Z) (w : World) : World :=
  setTimeout ResumeListening 3000 now w.

Definition log (text : string) (w : World) : World := emit (Log text) w.

(* ================================================================== *)
(** ** State transitions (app.js 256-306) *)

Definition transitionTo (newState : STATE) (w : World) : World :=
  let w := emit (Console ("State: " ++ showSTATE (currentState w) ++ " → "
                          ++ showSTATE newState)) w in
  let w := set_currentState newState w in
  match newState with
  | IDLE => emit (CommandListHidden false) (emit (Status "IDLE" "idle") w)
  | ACTIVATED => emit (CommandListHidden true) (emit (Status "ACTIVATED" "listening") w)
  | LISTENING_FOR_COMMAND =>
      emit (CommandListHidden true) (emit (Status "LISTENING" "listening") w)
  | UNINITIALIZED => w
  end.

Definition greetingFor (name : string) : string :=
  if truthy name then "Yes " ++ name ++ ", how may I help you?"
  else "Yes, how may I help you?".

(** [activate(source)], with [now] the value [Date.now()] returns. *)
Definition activate (source : string) (now : Z) (w : World) : World :=
  if now - lastActivationTime w <? ACTIVATION_COOLDOWN then
    log "Activation blocked (cooldown)" w
  else if negb (STATE_eqb (currentState w) IDLE) then
    w
  else
    let w := set_lastActivationTime now w in
    let w := log ("Activated by " ++ source) w in
    let w := transitionTo ACTIVATED w in
    let w := speak (greetingFor (userName w)) w in
    setTimeout ListenAfterGreeting 2500 now w.

(* ================================================================== *)
(** ** Voice logic, outside the command table (app.js 74-77, 104-150) *)

Definition recognition_onstart (w : World) : World :=
  log "Voice recognition active" (set_isRecognitionActive true w).

Definition restartRecognition (now : Z) (w : World) : World :=
  if isRecognitionActive w then w
  else setTimeout RestartRecognition 100 now w.

Definition recognition_onerror (error : string) (now : Z) (w : World) : World :=
  let w := emit (Console ("Speech recognition error: " ++ error)) w in
  if (error =? "not-allowed")%string then
    set_isRecognitionActive false (log "Microphone permission denied" w)
  else if ((error =? "no-speech") || (error =? "aborted"))%string then
    restartRecognition now w
  else
    restartRecognition now (log ("Voice error: " ++ error) w).

Definition recognition_onend (now : Z) (w : World) : World :=
  let w := set_isRecognitionActive false w in
  if negb (STATE_eqb (currentState w) UNINITIALIZED) then restartRecognition now w
  else w.

(** The body of a timer callback.  [startThrows] says whether the platform's
    [recognition.start()] throws, which only the restart callback can see. *)
Definition runTimer (cb : Timer) (startThrows : bool) (w : World) : World :=
  match cb with
  | ResumeListening => set_recognitionPaused false w
  | ListenAfterGreeting =>
      if STATE_eqb (currentState w) ACTIVATED
      then transitionTo LISTENING_FOR_COMMAND w
      else w
  | RestartRecognition =>
      if negb (STATE_eqb (currentState w) UNINITIALIZED)
         && negb (isRecognitionActive w)
      then
        let w := emit RecognitionStart w in
        if startThrows then emit (Console "Failed to restart recognition:") w else w
      else w
  | PalmReset motionLevel =>
      if palmDetectionActive w && (motionLevel <? 100) then
        emit (WaveActive false)
          (set_stableFrameCount 0 (set_palmDetectionActive false w))
      else w
  | Nothing => w
  end.

(* ================================================================== *)
(** ** Camera motion (app.js 153-253) *)

Definition startCamera (granted : bool) (w : World) : World :=
  if granted then set_metadataHandler true w
  else emit (Console "Camera error:") (log "Camera access denied" w).

Definition video_onloadedmetadata (w : World) : World :=
  set_frameLoop true (log "Camera active" w).

(** The loop [for (i = 0; i < current.data.length; i += 8)] with [diff] as
    accumulator; [skip] counts the samples left before the next one read.
    [None] is NaN: [lastFrame.data[i]] was [undefined]. *)
Fixpoint frameDiff (skip : nat) (current last : ImageData) (diff : Z) : option Z :=
  match current with
  | [] => Some diff
  | c :: current' =>
      match skip with
      | S skip' => frameDiff skip' current' (tl last) diff
      | O =>
          match last with
          | [] => None
          | l :: last' => frameDiff 7 current' last' (diff + Z.abs (c - l))
          end
      end
  end.

(** [Math.round(diff / 1000)]. *)
Definition motionLevelOf (current last : ImageData) : option Z :=
  option_map (fun diff => (diff + 500) / 1000) (frameDiff 0 current last 0).

(** "Only log significant motion to reduce noise" (app.js 194-197). *)
Definition logMotion (motionLevel : Z) (w : World) : World :=
  if motionLevel >? 1000 then
    log ("Motion: " ++ showZ motionLevel ++ "k (need "
         ++ showZ MOTION_THRESHOLD ++ "k)") w
  else w.

(** The palm was held for 20 stable frames (app.js 220-225). *)
Definition palmActivated (now : Z) (w : World) : World :=
  let w := log "✓ Palm activated!" w in
  let w := emit (WaveActive false) w in
  let w := activate "palm" now w in
  let w := set_palmDetectionActive false w in
  set_stableFrameCount 0 w.

(** "Palm is now stable (held still)" (app.js 212-226). *)
Definition holdStill (now : Z) (w : World) : World :=
  let w := set_stableFrameCount (stableFrameCount w + 1) w in
  let w :=
    if Z.rem (stableFrameCount w) 5 =? 0 then
      log ("Holding... " ++ showZ (stableFrameCount w) ++ "/20") w
    else w in
  if stableFrameCount w >=? 20 then palmActivated now w else w.

(** "Palm detection logic": the if / else-if chain (app.js 203-237). *)
Definition classifyMotion (motionLevel now : Z) (w : World) : World :=
  if motionLevel >? MOTION_THRESHOLD then
    if negb (palmDetectionActive w) then
      let w := set_palmDetectionActive true w in
      let w := set_stableFrameCount 0 w in
      let w := log "Palm detected - hold still..." w in
      emit (WaveActive true) w
    else w
  else if palmDetectionActive w && (motionLevel <? STABLE_THRESHOLD) then
    holdStill now w
  else if palmDetectionActive w && (motionLevel >=? STABLE_THRESHOLD)
          && (motionLevel <? MOTION_THRESHOLD) then
    if stableFrameCount w >? 0 then
      let w := log "Too much movement - hold still" w in
      set_stableFrameCount 0 w
    else w
  else if palmDetectionActive w && (motionLevel >=? MOTION_THRESHOLD) then
    let w := set_stableFrameCount 0 w in
    log "Palm detected - hold still..." w
  else w.

(** "Reset palm detection after 3 seconds of inactivity" (app.js 239-248):
    the callback keeps this frame's [motionLevel]. *)
Definition scheduleIdleReset (motionLevel now : Z) (w : World) : World :=
  if palmDetectionActive w && (motionLevel <? 100) then
    setTimeout (PalmReset motionLevel) 3000 now w
  else w.

(** The classification of one frame, from [motionLevel] on (app.js 194-248). *)
Definition palmDetection (motionLevel now : Z) (w : World) : World :=
  scheduleIdleReset motionLevel now
    (classifyMotion motionLevel now (logMotion motionLevel w)).

(** [detectMotion], run for the frame [current] the canvas holds. *)
Definition detectMotion (current : ImageData) (now : Z) (w : World) : World :=
  if STATE_eqb (currentState w) UNINITIALIZED then set_frameLoop false w
  else
    let w :=
      match lastFrame w with
      | Some last =>
          if STATE_eqb (currentState w) IDLE then
            match motionLevelOf current last with
            | Some motionLevel => palmDetection motionLevel now w
            | None => w
            end
          else w
      | None => w
      end in
    set_frameLoop true (set_lastFrame (Some current) w).

(* ================================================================== *)
(** ** The command table (app.js 309-531) *)

(** What the table takes from the platform: the regular-expression edits of
    the utterance, URL escaping and the locale's clock formats. *)
Record Host : Type := mkHost {
  encodeURIComponent : string -> string;
  musicQueryOf : string -> string;          (* lines 322-325 *)
  videoQueryOf : string -> string;          (* lines 376-379 *)
  openCapture : string -> option string;    (* text.match(/open\s+(.+)/i)[1] *)
  websiteOf : string -> string;             (* lines 489-498 *)
  searchCapture : string -> option string;  (* text.match(/(?:search|google)\s+(.+)/i)[1] *)
  toLocaleTimeString : Z -> string;
  toLocaleDateString : Z -> string
}.

(** A host for closed examples: no edits, no escaping, clocks as numbers. *)
Definition plainHost : Host :=
  mkHost (fun s => s) (fun s => s) (fun s => s)
    (fun _ => None) (fun s => s) (fun _ => None) showZ showZ.

Definition cities : list (string * string) :=
  [ ("agra", "Agra, India"); ("delhi", "Delhi, India");
    ("mumbai", "Mumbai, India"); ("bangalore", "Bangalore, India");
    ("kolkata", "Kolkata, India"); ("chennai", "Chennai, India");
    ("hyderabad", "Hyderabad, India"); ("pune", "Pune, India");
    ("jaipur", "Jaipur, India"); ("lucknow", "Lucknow, India");
    ("new york", "New York"); ("london", "London"); ("paris", "Paris");
    ("tokyo", "Tokyo"); ("dubai", "Dubai") ].

Fixpoint cityIn (text : string) (table : list (string * string)) : string :=
  match table with
  | [] => ""
  | (key, value) :: rest => if includes text key then value else cityIn text rest
  end.

Definition windowOpen (url : string) (w : World) : World := emit (WindowOpen url) w.

Definition longerThan2 (s : string) : bool := Nat.ltb 2 (String.length s).

Definition youtubeSearch : string := "https://www.youtube.com/results?search_query=".
Definition youtubeFilter : string := "&sp=EgIQAQ%253D%253D".

Section Script.

Variable host : Host.

(** The "open [website]" rule (app.js 486-512): [None] when it falls through. *)
Definition openWebsite (text : string) (w : World) : option World :=
  if includes text "open"
     && negb (includes text "files" || includes text "dashboard"
              || includes text "email" || includes text "calendar"
              || includes text "github" || includes text "news"
              || includes text "maps")
  then
    match openCapture host text with
    | Some said =>
        if truthy said then
          let website := websiteOf host said in
          if longerThan2 website then
            Some (speak ("Opening " ++ said)
                    (windowOpen ("https://" ++ website ++ "com") w))
          else None
        else None
    | None => None
    end
  else None.

(** The "search [query]" rule (app.js 515-526): [None] when it falls through. *)
Definition searchAnything (text : string) (w : World) : option World :=
  if includes text "search" || includes text "google" then
    match searchCapture host text with
    | Some said =>
        if truthy said then
          let query := trim said in
          if longerThan2 query then
            Some (speak ("Searching for " ++ query)
                    (windowOpen ("https://www.google.com/search?q="
                                 ++ encodeURIComponent host query) w))
          else None
        else None
    | None => None
    end
  else None.

(** [handleCommand(text)]; [now] is what [new Date()] reads. *)
Definition handleCommand (text : string) (now : Z) (w : World) : World :=
  let w := log ("Processing: " ++ dquote ++ text ++ dquote) w in
  if includes text "dashboard" || includes text "linkedin" then
    speak "Opening dashboard" (windowOpen "https://www.linkedin.com" w)
  else if includes text "music" then
    let musicQuery := musicQueryOf host text in
    if truthy musicQuery && negb (musicQuery =? "music")%string
       && longerThan2 musicQuery
    then
      speak ("Playing " ++ musicQuery ++ " music")
        (windowOpen (youtubeSearch
                     ++ encodeURIComponent host (musicQuery ++ " music")
                     ++ youtubeFilter) w)
    else
      speak "Playing music"
        (windowOpen "https://www.youtube.com/watch?v=jfKfPfyJRdk" w)
  else if includes text "files" || includes text "drive" then
    speak "Opening files" (windowOpen "https://drive.google.com" w)
  else if includes text "chat" || includes text "gpt" then
    speak "Opening ChatGPT" (windowOpen "https://chatgpt.com" w)
  else if includes text "email" || includes text "mail" || includes text "gmail" then
    speak "Opening email" (windowOpen "https://mail.google.com" w)
  else if includes text "calendar" || includes text "schedule" then
    speak "Opening calendar" (windowOpen "https://calendar.google.com" w)
  else if includes text "youtube" || includes text "video" || includes text "play" then
    let videoQuery := videoQueryOf host text in
    let bare := toLowerCase text in
    if truthy videoQuery && longerThan2 videoQuery
       && negb ((bare =? "youtube") || (bare =? "video") || (bare =? "play"))%string
    then
      setTimeout Nothing 100 now
        (speak ("Playing " ++ videoQuery)
           (windowOpen (youtubeSearch ++ encodeURIComponent host videoQuery
                        ++ youtubeFilter) w))
    else
      speak "Opening YouTube" (windowOpen "https://www.youtube.com" w)
  else if includes text "github" || includes text "code" then
    speak "Opening GitHub" (windowOpen "https://github.com" w)
  else if includes text "weather" || includes text "forecast" then
    let city := cityIn text cities in
    if truthy city then
      speak ("Opening weather for " ++ city)
        (windowOpen ("https://www.google.com/search?q=weather+"
                     ++ encodeURIComponent host city) w)
    else
      speak "Opening weather" (windowOpen "https://weather.com" w)
  else if includes text "news" then
    speak "Opening news" (windowOpen "https://news.google.com" w)
  else if includes text "maps" || includes text "navigation" then
    speak "Opening maps" (windowOpen "https://maps.google.com" w)
  else if includes text "time" || includes text "clock" then
    speak ("The time is " ++ toLocaleTimeString host now) w
  else if includes text "date" || includes text "today" then
    speak ("Today is " ++ toLocaleDateString host now) w
  else if includes text "help" then
    speak "You can say: open files, dashboard, email, calendar, chat GPT, youtube, github, weather of any city, news, maps, play music, what time is it, what's the date, open any website, search anything, or help" w
  else
    match openWebsite text w with
    | Some done => done
    | None =>
        match searchAnything text w with
        | Some done => done
        | None =>
            log "Command not recognized" (speak "Sorry, I cannot do that yet" w)
        end
    end.

(** [recognition.onresult]; [transcript] is
    [event.results[event.results.length - 1][0].transcript]. *)
Definition recognition_onresult (transcript : string) (now : Z) (w : World) : World :=
  if recognitionPaused w then
    emit (Console "Ignoring input - recognition paused") w
  else
    let text := trim (toLowerCase transcript) in
    let w := log ("Heard: " ++ dquote ++ text ++ dquote) w in
    if STATE_eqb (currentState w) IDLE && includes text "control" then
      activate "voice" now w
    else if STATE_eqb (currentState w) LISTENING_FOR_COMMAND then
      handleCommand text now (transitionTo IDLE w)
    else w.

(* ================================================================== *)
(** ** Initialisation (app.js 63-73, 131-137, 534-570) *)

(** A call that either returns or throws, with the world it leaves. *)
Inductive Outcome : Type :=
| Returned (w : World)
| Threw (w : World).

(** [startSpeech()].  [supported]: the platform has a SpeechRecognition
    constructor; [ctorThrows]: calling it throws; [startThrows]:
    [recognition.start()] throws (caught inside). *)
Definition startSpeech (supported ctorThrows startThrows : bool) (w : World) : Outcome :=
  if negb supported then Returned (log "Speech recognition not supported" w)
  else if ctorThrows then Threw w
  else
    let w := set_recognition true w in
    let w := emit RecognitionStart w in
    if startThrows then
      Returned (log "Voice recognition failed to start"
                  (emit (Console "Failed to start recognition:") w))
    else Returned w.

(** [startBtn.onclick].  [nameInput] is what [prompt] returned ([None] for
    null); [cameraGranted]: [getUserMedia] resolved.  The handler is async
    and suspends once, at [await startCamera()], with [currentState] still
    UNINITIALIZED; its two halves are run here in one piece.  The [catch]
    is entered by an exception of the SpeechRecognition constructor. *)
Definition startBtn_onclick (nameInput : option string)
    (cameraGranted speechSupported ctorThrows startThrows : bool)
    (w : World) : World :=
  if negb (STATE_eqb (currentState w) UNINITIALIZED) then w
  else
    let name := match nameInput with Some s => trim s | None => "" end in
    let w := set_userName name w in
    let w := emit (ButtonDisabled true) w in
    let w := emit (ButtonText "INITIALIZING...") w in
    let w := log "Starting system..." w in
    let w := startCamera cameraGranted w in
    match startSpeech speechSupported ctorThrows startThrows w with
    | Returned w =>
        let w := transitionTo IDLE w in
        let w := emit (ButtonText "ONLINE") w in
        if truthy (userName w) then
          speak ("Welcome " ++ userName w
                 ++ ". Say control or show your palm to activate me.")
            (log ("System online - Welcome " ++ userName w ++ "!") w)
        else
          log "System online - Say 'control' or show palm" w
    | Threw w =>
        let w := log "Initialization failed" w in
        let w := emit (Console "Error") w in
        let w := emit (ButtonDisabled false) w in
        let w := emit (ButtonText "RETRY") w in
        set_currentState UNINITIALIZED w
    end.

(* ================================================================== *)
(** ** The event loop *)

(** What the browser can deliver to the script. *)
Inductive Event : Type :=
| Click (nameInput : option string)
        (cameraGranted speechSupported ctorThrows startThrows : bool)
| LoadedMetadata
| AnimationFrame (current : ImageData)
| OnStart
| OnResult (transcript : string)
| OnError (error : string)
| OnEnd
| UtterEnd
| UtterError
| Timeout (k : nat) (startThrows : bool).

(** The pending timers without the [k]-th. *)
Definition dropTimer (k : nat) (ts : list (Z * Timer)) : list (Z * Timer) :=
  firstn k ts ++ skipn (S k) ts.

(** One callback run to completion at time [now]; [None] when the browser
    cannot deliver that event in that world (no handler installed, no such
    timer, timer not yet due, nothing being spoken).  Utterances end, or
    fail, in the order they were queued.  The click handler can always be
    invoked. *)
Definition step (now : Z) (e : Event) (w : World) : option World :=
  match e with
  | Click nameInput cameraGranted speechSupported ctorThrows startThrows =>
      Some (startBtn_onclick nameInput cameraGranted speechSupported
              ctorThrows startThrows w)
  | LoadedMetadata =>
      if metadataHandler w then Some (video_onloadedmetadata w) else None
  | AnimationFrame current =>
      if frameLoop w then Some (detectMotion current now w) else None
  | OnStart => if recognition w then Some (recognition_onstart w) else None
  | OnResult transcript =>
      if recognition w then Some (recognition_onresult transcript now w) else None
  | OnError error =>
      if recognition w then Some (recognition_onerror error now w) else None
  | OnEnd => if recognition w then Some (recognition_onend now w) else None
  | UtterEnd =>
      match speaking w with
      | [] => None
      | _ :: rest => Some (utter_onend now (set_speaking rest w))
      end
  | UtterError =>
      match speaking w with
      | [] => None
      | _ :: rest => Some (utter_onerror now (set_speaking rest w))
      end
  | Timeout k startThrows =>
      match nth_error (timers w) k with
      | Some (due, cb) =>
          if due <=? now
          then Some (runTimer cb startThrows (set_timers (dropTimer k (timers w)) w))
          else None
      | None => None
      end
  end.

(** A sequence of timestamped events, in the order the browser delivers them. *)
Fixpoint run (events : list (Z * Event)) (w : World) : option World :=
  match events with
  | [] => Some w
  | (now, e) :: rest =>
      match step now e w with
      | Some w' => run rest w'
      | None => None
      end
  end.

(** A burst of recognition results, as events. *)
Definition resultEvents (results : list (Z * string)) : list (Z * Event) :=
  map (fun r => (fst r, OnResult (snd r))) results.

(** The utterance carries the wake word and is not muted away. *)
Definition wakeWord (e : Event) (w : World) : Prop :=
  exists transcript : string,
    e = OnResult transcript
    /\ recognition w = true
    /\ recognitionPaused w = false
    /\ includes (trim (toLowerCase transcript)) "control" = true.

(** The frame is the stable frame that completes a palm hold. *)
Definition gestureConfirmed (e : Event) (w : World) : Prop :=
  exists (current last : ImageData) (motionLevel : Z),
    e = AnimationFrame current
    /\ frameLoop w = true
    /\ lastFrame w = Some last
    /\ motionLevelOf current last = Some motionLevel
    /\ palmDetectionActive w = true
    /\ motionLevel < STABLE_THRESHOLD
    /\ 20 <= stableFrameCount w + 1.

(** A trigger event that passes both guards of [activate]. *)
Definition accepted (now : Z) (e : Event) (w : World) : Prop :=
  currentState w = IDLE
  /\ ACTIVATION_COOLDOWN <= now - lastActivationTime w
  /\ (wakeWord e w \/ gestureConfirmed e w).

(** The greeting timer of [activate], pending as timer [k] and due. *)
Definition autoAdvance (now : Z) (e : Event) (w : World) : Prop :=
  exists (k : nat) (startThrows : bool) (due : Z),
    e = Timeout k startThrows
    /\ nth_error (timers w) k = Some (due, ListenAfterGreeting)
    /\ due <= now.

(** [continues w events w']: the events take [w] to [w'], and along the way
    the machine's state changes only by the greeting timer firing while the
    state is still ACTIVATED. *)
Inductive continues : World -> list (Z * Event) -> World -> Prop :=
| continues_done (w : World) : continues w [] w
| continues_same (w w' w'' : World) (now : Z) (e : Event) (rest : list (Z * Event)) :
    step now e w = Some w' ->
    currentState w' = currentState w ->
    continues w' rest w'' ->
    continues w ((now, e) :: rest) w''
| continues_advance (w w' w'' : World) (now : Z) (e : Event) (rest : list (Z * Event)) :
    step now e w = Some w' ->
    currentState w = ACTIVATED ->
    autoAdvance now e w ->
    currentState w' = LISTENING_FOR_COMMAND ->
    continues w' rest w'' ->
    continues w ((now, e) :: rest) w''.

(** Frames delivered every [period] ms from [start] on. *)
Fixpoint frameEvents (start period : Z) (frames : list ImageData) : list (Z * Event) :=
  match frames with
  | [] => []
  | f :: rest => (start, AnimationFrame f) :: frameEvents (start + period) period rest
  end.

(** The worlds a run goes through, one per event delivered. *)
Fixpoint history (events : list (Z * Event)) (w : World) : list World :=
  match events with
  | [] => []
  | (now, e) :: rest =>
      match step now e w with
      | Some w' => w' :: history rest w'
      | None => []
      end
  end.

(** Start-up with camera and microphone granted, no name given, and the
    video metadata loaded. *)
Definition startUp : list (Z * Event) :=
  [ (1000, Click None true true false false); (1200, OnStart);
    (1500, LoadedMetadata) ].


(** The world the first click leaves (no name, everything granted). *)
Definition online : World := startBtn_onclick None true true false false boot.

(* ================================================================== *)
(** ** Observations used by the statements *)

(** Two worlds agree on every variable of the script, on the pending timers
    and on the speech queue: on everything but the effect trace. *)
Definition sameState (a b : World) : Prop := set_output [] a = set_output [] b.

(** An activation request at [now] went through: it committed the time stamp
    and took the machine out of IDLE. *)
Definition succeeded (now : Z) (before after : World) : Prop :=
  lastActivationTime after = now /\
  currentState before = IDLE /\
  currentState after <> IDLE.

(** A trace with the text of its log lines blanked. *)
Definition eraseLogText (e : Effect) : Effect :=
  match e with
  | Log _ => Log ""
  | other => other
  end.

(** The machine is greeting or waiting for a command. *)
Definition engaged (w : World) : bool :=
  match currentState w with
  | ACTIVATED | LISTENING_FOR_COMMAND => true
  | UNINITIALIZED | IDLE => false
  end.

(** The log line [handleCommand] starts with. *)
Definition processingLine (text : string) : string :=
  "Processing: " ++ dquote ++ text ++ dquote.

(** Marks the effect that opens a run of the command table. *)
Definition isProcessing (e : Effect) : bool :=
  match e with
  | Log line => String.prefix "Processing: " line
  | _ => false
  end.

Definition ignoredLine : Effect := Console "Ignoring input - recognition paused".

(* ================================================================== *)
(** ** Concrete frames for the closed examples

    240 x 180 RGBA frames: 43200 opaque grey pixels, of which the stride-8
    loop reads the red sample of every second one.  [frameLit n] has its
    first [n] pixels white and the rest black, so two such frames differ by
    255 on |n - m| / 2 of the samples read. *)

Fixpoint pixels (grey : Z) (n : nat) : ImageData :=
  match n with
  | O => []
  | S n' => grey :: grey :: grey :: 255 :: pixels grey n'
  end.

Definition framePixels : nat := Z.to_nat 43200.

Definition frameLit (lit : Z) : ImageData :=
  (pixels 255 (Z.to_nat lit) ++ pixels 0 (framePixels - Z.to_nat lit))%list.

(** No light at all. *)
Definition dark : ImageData := frameLit 0.
(** 196 samples read differ from [dark]: motion level 50. *)
Definition darkShifted : ImageData := frameLit 392.
(** 15686 samples read differ from [dark]: motion level 4000. *)
Definition bright : ImageData := frameLit 31372.
(** 196 samples read differ from [bright]: motion level 50. *)
Definition brightShifted : ImageData := frameLit 31764.

(** [n] pairs of frames [a; b; a; b; ...]. *)
Fixpoint alternate (n : nat) (a b : ImageData) : list ImageData :=
  match n with
  | O => []
  | S n' => a :: b :: alternate n' a b
  end.

(** The frames of "[4000], [50] x 10, [4000]" after a first dark frame. *)
Definition twoBursts : list ImageData :=
  ([dark; bright] ++ alternate 5 brightShifted bright ++ [dark])%list.

Definition isPalmActivated (e : Effect) : bool :=
  match e with
  | Log line => (line =? "✓ Palm activated!")%string
  | _ => false
  end.

Definition isRecognitionStart (e : Effect) : bool :=
  match e with
  | RecognitionStart => true
  | _ => false
  end.

Definition count (p : Effect -> bool) (w : World) : nat :=
  List.length (filter p (output w)).

(** What the palm examples watch: state, armed flag, stable-frame count and
    the number of gestures confirmed so far. *)
Definition palmView (w : World) : STATE * bool * Z * nat :=
  (currentState w, palmDetectionActive w, stableFrameCount w,
   count isPalmActivated w).



Definition sessionView (w : World) : STATE * bool * list (Z * Timer) * nat :=
  (currentState w, isRecognitionActive w, timers w, count isRecognitionStart w).

Definition resetView (w : World) : bool * Z * list (Z * Timer) :=
  (palmDetectionActive w, stableFrameCount w, timers w).

(* ================================================================== *)
(** ** Predicates of the invariant proofs *)

(** Due times of the pending greeting timers. *)
Fixpoint advanceDues (ts : list (Z * Timer)) : list Z :=
  match ts with
  | [] => []
  | (due, ListenAfterGreeting) :: rest => due :: advanceDues rest
  | _ :: rest => advanceDues rest
  end.

(** A callback that left the state, the cooldown stamp and the greeting
    timers as they were. *)
Definition kept (w w' : World) : Prop :=
  currentState w' = currentState w
  /\ lastActivationTime w' = lastActivationTime w
  /\ advanceDues (timers w') = advanceDues (timers w).

(** A callback in which [activate] went through at [now]. *)
Definition activated (now : Z) (w w' : World) : Prop :=
  currentState w = IDLE
  /\ ACTIVATION_COOLDOWN <= now - lastActivationTime w
  /\ currentState w' = ACTIVATED
  /\ lastActivationTime w' = now
  /\ advanceDues (timers w') = (advanceDues (timers w) ++ [now + 2500])%list.

(** In ACTIVATED exactly one greeting timer is pending, due 2500 ms after
    the activation; in any other state none is. *)
Definition advanceInv (w : World) : Prop :=
  advanceDues (timers w)
  = if STATE_eqb (currentState w) ACTIVATED
    then [lastActivationTime w + 2500]
    else [].

(** What one rule of the command table does to the world it is run in:
    effects that are no "Processing" line, a muted recogniser, and the
    state, cooldown stamp and greeting timers left alone. *)
Definition answered (w done : World) : Prop :=
  (exists rest : list Effect,
     output done = (output w ++ rest)%list
     /\ filter isProcessing rest = [])
  /\ recognitionPaused done = true
  /\ kept w done.

(* ================================================================== *)
(** ** Basic facts *)

Lemma STATE_eqb_eq (a b : STATE) : STATE_eqb a b = true <-> a = b.
Proof. destruct a, b; simpl; split; intro H; try reflexivity; discriminate H. Qed.

Lemma STATE_eqb_neq (a b : STATE) : STATE_eqb a b = false <-> a <> b.
Proof.
  destruct a, b; simpl; split; intro H; try reflexivity; try discriminate H;
    try (intro E; discriminate E); exfalso; apply H; reflexivity.
Qed.



Lemma currentState_log (text : string) (w : World) :
  currentState (log text w) = currentState w.
Proof. reflexivity. Qed.

Lemma currentState_transitionTo (s : STATE) (w : World) :
  currentState (transitionTo s w) = s.
Proof. destruct s; reflexivity. Qed.

Lemma lastActivationTime_transitionTo (s : STATE) (w : World) :
  lastActivationTime (transitionTo s w) = lastActivationTime w.
Proof. destruct s; reflexivity. Qed.

(** The three ways [activate] can go. *)
Lemma activate_blocked (source : string) (now : Z) (w : World) :
  now - lastActivationTime w < ACTIVATION_COOLDOWN ->
  activate source now w = log "Activation blocked (cooldown)" w.
Proof.
  intro H. unfold activate.
  destruct (Z.ltb_spec (now - lastActivationTime w) ACTIVATION_COOLDOWN) as [_ | C];
    [reflexivity | lia].
Qed.

Lemma activate_not_idle (source : string) (now : Z) (w : World) :
  ACTIVATION_COOLDOWN <= now - lastActivationTime w ->
  currentState w <> IDLE ->
  activate source now w = w.
Proof.
  intros H N. unfold activate.
  destruct (Z.ltb_spec (now - lastActivationTime w) ACTIVATION_COOLDOWN) as [C | _];
    [lia |].
  apply STATE_eqb_neq in N. rewrite N. reflexivity.
Qed.

Lemma activate_accepted (source : string) (now : Z) (w : World) :
  ACTIVATION_COOLDOWN <= now - lastActivationTime w ->
  currentState w = IDLE ->
  activate source now w =
    setTimeout ListenAfterGreeting 2500 now
      (speak (greetingFor (userName w))
         (transitionTo ACTIVATED
            (log ("Activated by " ++ source) (set_lastActivationTime now w)))).
Proof.
  intros H I. unfold activate.
  destruct (Z.ltb_spec (now - lastActivationTime w) ACTIVATION_COOLDOWN) as [C | _];
    [lia |].
  rewrite I. reflexivity.
Qed.


Lemma set_output_same (w : World) : set_output (output w) w = w.
Proof. destruct w; reflexivity. Qed.

Ltac answered_leaf :=
  unfold answered, kept; simpl; rewrite <- ?app_assoc; simpl;
  split; [eexists; split; reflexivity | repeat split].

Lemma advanceDues_app (a b : list (Z * Timer)) :
  advanceDues (a ++ b) = (advanceDues a ++ advanceDues b)%list.
Proof.
  induction a as [| [due cb] a IH]; simpl; [reflexivity |].
  destruct cb; simpl; rewrite IH; reflexivity.
Qed.

Lemma openWebsite_answered (text : string) (w done : World) :
  openWebsite text w = Some done -> answered w done.
Proof.
  unfold openWebsite.
  repeat match goal with
         | |- context [if ?b then _ else _] => destruct b
         | |- context [match openCapture host text with _ => _ end] =>
             destruct (openCapture host text)
         end;
    intro E; try discriminate E; injection E as <-; answered_leaf.
Qed.

Lemma searchAnything_answered (text : string) (w done : World) :
  searchAnything text w = Some done -> answered w done.
Proof.
  unfold searchAnything.
  repeat match goal with
         | |- context [if ?b then _ else _] => destruct b
         | |- context [match searchCapture host text with _ => _ end] =>
             destruct (searchCapture host text)
         end;
    intro E; try discriminate E; injection E as <-; answered_leaf.
Qed.

Lemma handleCommand_answered (text : string) (now : Z) (w : World) :
  answered (log (processingLine text) w) (handleCommand text now w).
Proof.
  unfold handleCommand. fold (processingLine text).
  generalize (log (processingLine text) w). intro w0.
  repeat match goal with
         | |- context [if ?b then _ else _] => destruct b
         end; try answered_leaf.
  - rewrite advanceDues_app, app_nil_r. reflexivity.
  - destruct (openWebsite text w0) as [done |] eqn:O.
    + exact (openWebsite_answered text w0 done O).
    + destruct (searchAnything text w0) as [done |] eqn:S.
      * exact (searchAnything_answered text w0 done S).
      * answered_leaf.
Qed.

(** Every path through the command table starts with its log line, adds no
    second one, mutes the recogniser, and leaves the machine's state, the
    cooldown stamp and the greeting timers alone. *)
Lemma handleCommand_effects (text : string) (now : Z) (w : World) :
  (exists rest : list Effect,
     output (handleCommand text now w)
       = (output w ++ Log (processingLine text) :: rest)%list
     /\ filter isProcessing rest = [])
  /\ recognitionPaused (handleCommand text now w) = true
  /\ kept w (handleCommand text now w).
Proof.
  destruct (handleCommand_answered text now w) as ((rest & O & F) & P & K).
  split; [| split; [exact P | exact K]].
  exists rest. simpl in O. rewrite <- app_assoc in O. simpl in O.
  split; assumption.
Qed.

(* ================================================================== *)
(** ** How each callback moves the state machine *)

Lemma kept_refl (w : World) : kept w w.
Proof. repeat split. Qed.

Lemma kept_trans (a b c : World) : kept a b -> kept b c -> kept a c.
Proof.
  intros (S1 & L1 & D1) (S2 & L2 & D2).
  repeat split; [rewrite S2 | rewrite L2 | rewrite D2]; assumption.
Qed.

Lemma kept_then_activated (now : Z) (a b c : World) :
  kept a b -> activated now b c -> activated now a c.
Proof.
  intros (S1 & L1 & D1) (I & C & A & L & D).
  rewrite S1 in I. rewrite L1 in C. rewrite D1 in D.
  repeat split; assumption.
Qed.

Lemma activated_then_kept (now : Z) (a b c : World) :
  activated now a b -> kept b c -> activated now a c.
Proof.
  intros (I & C & A & L & D) (S2 & L2 & D2).
  rewrite <- S2 in A. rewrite <- L2 in L. rewrite <- D2 in D.
  repeat split; assumption.
Qed.

Lemma activate_moves (source : string) (now : Z) (w : World) :
  kept w (activate source now w) \/ activated now w (activate source now w).
Proof.
  destruct (Z.lt_ge_cases (now - lastActivationTime w) ACTIVATION_COOLDOWN) as [B | C].
  - left. rewrite (activate_blocked source now w B). repeat split.
  - destruct (STATE_eqb (currentState w) IDLE) eqn:E.
    + apply STATE_eqb_eq in E. right.
      rewrite (activate_accepted source now w C E).
      repeat split; try assumption.
      cbn [timers setTimeout set_timers]. rewrite advanceDues_app. reflexivity.
    + apply STATE_eqb_neq in E. left.
      rewrite (activate_not_idle source now w C E). apply kept_refl.
Qed.

Lemma palmActivated_moves (now : Z) (w : World) :
  kept w (palmActivated now w) \/ activated now w (palmActivated now w).
Proof.
  unfold palmActivated. cbv zeta.
  set (v := emit (WaveActive false) (log "✓ Palm activated!" w)).
  assert (K : kept w v) by (repeat split).
  destruct (activate_moves "palm" now v) as [M | M].
  - left. apply (kept_trans w v); [exact K |].
    apply (kept_trans v (activate "palm" now v)); [exact M | repeat split].
  - right. apply (kept_then_activated now w v); [exact K |].
    apply (activated_then_kept now v (activate "palm" now v)); [exact M | repeat split].
Qed.

Lemma holdStill_moves (now : Z) (w : World) :
  kept w (holdStill now w)
  \/ (activated now w (holdStill now w) /\ 20 <= stableFrameCount w + 1).
Proof.
  unfold holdStill. cbv zeta.
  set (w1 := set_stableFrameCount (stableFrameCount w + 1) w).
  set (w2 := if Z.rem (stableFrameCount w1) 5 =? 0
             then log ("Holding... " ++ showZ (stableFrameCount w1) ++ "/20") w1
             else w1).
  assert (F : kept w w2 /\ stableFrameCount w2 = stableFrameCount w + 1).
  { unfold w2. destruct (Z.rem (stableFrameCount w1) 5 =? 0); repeat split. }
  destruct F as (K & Fs).
  destruct (Z.geb_spec (stableFrameCount w2) 20) as [G | G].
  - destruct (palmActivated_moves now w2) as [M | M].
    + left. exact (kept_trans w w2 _ K M).
    + right. split; [exact (kept_then_activated now w w2 _ K M) | lia].
  - left. exact K.
Qed.

Lemma classifyMotion_moves (motionLevel now : Z) (w : World) :
  kept w (classifyMotion motionLevel now w)
  \/ (activated now w (classifyMotion motionLevel now w)
      /\ palmDetectionActive w = true
      /\ motionLevel < STABLE_THRESHOLD
      /\ 20 <= stableFrameCount w + 1).
Proof.
  unfold classifyMotion.
  destruct (motionLevel >? MOTION_THRESHOLD).
  { left. destruct (negb (palmDetectionActive w)); repeat split. }
  destruct (palmDetectionActive w) eqn:P; cbn [andb].
  - destruct (Z.ltb_spec motionLevel STABLE_THRESHOLD) as [S | S].
    + destruct (holdStill_moves now w) as [K | (A & G)].
      * left. exact K.
      * right. split; [exact A | split; [reflexivity | split; [exact S | exact G]]].
    + left.
      destruct ((motionLevel >=? STABLE_THRESHOLD) && (motionLevel <? MOTION_THRESHOLD)).
      * destruct (stableFrameCount w >? 0); repeat split.
      * destruct (motionLevel >=? MOTION_THRESHOLD); repeat split.
  - left. apply kept_refl.
Qed.

Lemma palmDetection_moves (motionLevel now : Z) (w : World) :
  kept w (palmDetection motionLevel now w)
  \/ (activated now w (palmDetection motionLevel now w)
      /\ palmDetectionActive w = true
      /\ motionLevel < STABLE_THRESHOLD
      /\ 20 <= stableFrameCount w + 1).
Proof.
  unfold palmDetection.
  set (w1 := logMotion motionLevel w).
  assert (F : kept w w1
              /\ palmDetectionActive w1 = palmDetectionActive w
              /\ stableFrameCount w1 = stableFrameCount w).
  { unfold w1, logMotion. destruct (motionLevel >? 1000); repeat split. }
  destruct F as (K & Fp & Fs).
  assert (R : forall v, kept v (scheduleIdleReset motionLevel now v)).
  { intro v. unfold scheduleIdleReset.
    destruct (palmDetectionActive v && (motionLevel <? 100)); repeat split.
    cbn [timers setTimeout set_timers]. rewrite advanceDues_app, app_nil_r.
    reflexivity. }
  destruct (classifyMotion_moves motionLevel now w1) as [M | (A & P & S & G)].
  - left. exact (kept_trans w w1 _ K (kept_trans w1 _ _ M (R _))).
  - right. rewrite Fp in P. rewrite Fs in G.
    split; [| split; [exact P | split; [exact S | exact G]]].
    exact (kept_then_activated now w w1 _ K (activated_then_kept now w1 _ _ A (R _))).
Qed.

Lemma detectMotion_moves (current : ImageData) (now : Z) (w : World) :
  kept w (detectMotion current now w)
  \/ (activated now w (detectMotion current now w)
      /\ exists (last : ImageData) (motionLevel : Z),
           lastFrame w = Some last
           /\ motionLevelOf current last = Some motionLevel
           /\ palmDetectionActive w = true
           /\ motionLevel < STABLE_THRESHOLD
           /\ 20 <= stableFrameCount w + 1).
Proof.
  unfold detectMotion.
  destruct (STATE_eqb (currentState w) UNINITIALIZED); [left; repeat split |].
  cbv zeta.
  assert (F : forall v, kept v (set_frameLoop true (set_lastFrame (Some current) v)))
    by (intro v; repeat split).
  destruct (lastFrame w) as [last |] eqn:LF; [| left; apply F].
  destruct (STATE_eqb (currentState w) IDLE); [| left; apply F].
  destruct (motionLevelOf current last) as [motionLevel |] eqn:M; [| left; apply F].
  destruct (palmDetection_moves motionLevel now w) as [K | (A & P & S & G)].
  - left. exact (kept_trans w _ _ K (F _)).
  - right. split; [exact (activated_then_kept now w _ _ A (F _)) |].
    exists last, motionLevel.
    split; [reflexivity | split; [exact M | split; [exact P | split; [exact S | exact G]]]].
Qed.

Lemma recognition_onresult_moves (transcript : string) (now : Z) (w : World) :
  kept w (recognition_onresult transcript now w)
  \/ (activated now w (recognition_onresult transcript now w)
      /\ recognitionPaused w = false
      /\ includes (trim (toLowerCase transcript)) "control" = true)
  \/ (currentState w = LISTENING_FOR_COMMAND
      /\ recognitionPaused w = false
      /\ currentState (recognition_onresult transcript now w) = IDLE
      /\ lastActivationTime (recognition_onresult transcript now w)
         = lastActivationTime w
      /\ advanceDues (timers (recognition_onresult transcript now w))
         = advanceDues (timers w)).
Proof.
  unfold recognition_onresult.
  destruct (recognitionPaused w) eqn:P; [left; repeat split |].
  cbv zeta. rewrite !currentState_log.
  set (text := trim (toLowerCase transcript)).
  set (heard := log ("Heard: " ++ dquote ++ text ++ dquote) w).
  assert (K : kept w heard) by (repeat split).
  destruct (STATE_eqb (currentState w) IDLE) eqn:I.
  - apply STATE_eqb_eq in I.
    destruct (includes text "control") eqn:C; cbn [andb].
    + destruct (activate_moves "voice" now heard) as [M | M].
      * left. exact (kept_trans w heard _ K M).
      * right. left. split; [exact (kept_then_activated now w heard _ K M) |].
        split; reflexivity.
    + replace (STATE_eqb (currentState w) LISTENING_FOR_COMMAND) with false
        by (rewrite I; reflexivity).
      left. exact K.
  - cbn [andb].
    destruct (STATE_eqb (currentState w) LISTENING_FOR_COMMAND) eqn:L.
    + apply STATE_eqb_eq in L. right. right.
      destruct (handleCommand_effects text now (transitionTo IDLE heard))
        as (_ & _ & (Hs & Hl & Hd)).
      rewrite Hs, Hl, Hd, currentState_transitionTo, lastActivationTime_transitionTo.
      repeat split; try assumption.
    + left. exact K.
Qed.

Lemma startBtn_onclick_moves (nameInput : option string)
    (cameraGranted speechSupported ctorThrows startThrows : bool) (w : World) :
  kept w (startBtn_onclick nameInput cameraGranted speechSupported
            ctorThrows startThrows w)
  \/ (currentState w = UNINITIALIZED
      /\ currentState (startBtn_onclick nameInput cameraGranted speechSupported
                         ctorThrows startThrows w) = IDLE
      /\ lastActivationTime (startBtn_onclick nameInput cameraGranted
                               speechSupported ctorThrows startThrows w)
         = lastActivationTime w
      /\ advanceDues (timers (startBtn_onclick nameInput cameraGranted
                                speechSupported ctorThrows startThrows w))
         = advanceDues (timers w)).
Proof.
  unfold startBtn_onclick.
  destruct (STATE_eqb (currentState w) UNINITIALIZED) eqn:U; [| left; apply kept_refl].
  apply STATE_eqb_eq in U. cbn [negb]. cbv zeta.
  unfold startSpeech, startCamera.
  destruct cameraGranted, speechSupported, ctorThrows, startThrows; cbn [negb];
    try (left; repeat split; cbn; rewrite U; reflexivity);
    right; (split; [exact U |]);
    match goal with
    | |- context [if ?c then _ else _] => destruct c
    end; repeat split.
Qed.

Lemma runTimer_moves (cb : Timer) (startThrows : bool) (w : World) :
  timers (runTimer cb startThrows w) = timers w
  /\ lastActivationTime (runTimer cb startThrows w) = lastActivationTime w
  /\ (currentState (runTimer cb startThrows w) = currentState w
      \/ (cb = ListenAfterGreeting
          /\ currentState w = ACTIVATED
          /\ currentState (runTimer cb startThrows w) = LISTENING_FOR_COMMAND)).
Proof.
  destruct cb; simpl.
  - repeat split. left. reflexivity.
  - destruct (STATE_eqb (currentState w) ACTIVATED) eqn:A.
    + apply STATE_eqb_eq in A. repeat split. right. repeat split. exact A.
    + repeat split. left. reflexivity.
  - destruct (negb (STATE_eqb (currentState w) UNINITIALIZED)
              && negb (isRecognitionActive w));
      [destruct startThrows |]; repeat split; left; reflexivity.
  - destruct (palmDetectionActive w && (motionLevel <? 100));
      repeat split; left; reflexivity.
  - repeat split. left. reflexivity.
Qed.

Lemma restartRecognition_kept (now : Z) (w : World) :
  kept w (restartRecognition now w).
Proof.
  unfold restartRecognition. destruct (isRecognitionActive w); repeat split.
  cbn [timers setTimeout set_timers]. rewrite advanceDues_app, app_nil_r. reflexivity.
Qed.

Lemma recognition_onerror_kept (error : string) (now : Z) (w : World) :
  kept w (recognition_onerror error now w).
Proof.
  unfold recognition_onerror. cbv zeta.
  destruct (error =? "not-allowed")%string; [repeat split |].
  destruct ((error =? "no-speech") || (error =? "aborted"))%string.
  - eapply kept_trans; [| apply restartRecognition_kept]. repeat split.
  - eapply kept_trans; [| apply restartRecognition_kept]. repeat split.
Qed.

Lemma recognition_onend_kept (now : Z) (w : World) :
  kept w (recognition_onend now w).
Proof.
  unfold recognition_onend. cbv zeta.
  match goal with |- context [if ?c then _ else _] => destruct c end.
  - eapply kept_trans; [| apply restartRecognition_kept]. repeat split.
  - repeat split.
Qed.

Lemma utter_done_kept (now : Z) (rest : list string) (w : World) :
  kept w (utter_onend now (set_speaking rest w))
  /\ kept w (utter_onerror now (set_speaking rest w)).
Proof.
  split; repeat split; cbn [timers utter_onend utter_onerror setTimeout set_timers set_speaking];
    rewrite advanceDues_app, app_nil_r; reflexivity.
Qed.

(** The transition table of the script: every way one callback can move
    [currentState], [lastActivationTime] and the greeting timers. *)
Lemma step_cases (now : Z) (e : Event) (w w' : World) :
  step now e w = Some w' ->
  kept w w'
  \/ (currentState w = UNINITIALIZED /\ currentState w' = IDLE
      /\ lastActivationTime w' = lastActivationTime w
      /\ advanceDues (timers w') = advanceDues (timers w))
  \/ (accepted now e w /\ activated now w w')
  \/ (exists (k : nat) (startThrows : bool) (due : Z) (cb : Timer),
        e = Timeout k startThrows
        /\ nth_error (timers w) k = Some (due, cb)
        /\ due <= now
        /\ timers w' = dropTimer k (timers w)
        /\ lastActivationTime w' = lastActivationTime w
        /\ (currentState w' = currentState w
            \/ (cb = ListenAfterGreeting
                /\ currentState w = ACTIVATED
                /\ currentState w' = LISTENING_FOR_COMMAND)))
  \/ (currentState w = LISTENING_FOR_COMMAND /\ currentState w' = IDLE
      /\ lastActivationTime w' = lastActivationTime w
      /\ advanceDues (timers w') = advanceDues (timers w)).
Proof.
  destruct e as [nameInput cam sup ct st | | current | | transcript | error | | | | k st];
    simpl; intro S.
  - injection S as <-.
    destruct (startBtn_onclick_moves nameInput cam sup ct st w) as [K | U].
    + left. exact K.
    + right. left. exact U.
  - destruct (metadataHandler w); [| discriminate S]. injection S as <-.
    left. repeat split.
  - destruct (frameLoop w) eqn:FL; [| discriminate S]. injection S as <-.
    destruct (detectMotion_moves current now w)
      as [K | (A & last & m & LF & M & P & St & G)].
    + left. exact K.
    + right. right. left. split; [| exact A].
      destruct A as (I & C & _).
      split; [exact I | split; [exact C | right]].
      exists current, last, m. repeat split; assumption.
  - destruct (recognition w); [| discriminate S]. injection S as <-.
    left. repeat split.
  - destruct (recognition w) eqn:R; [| discriminate S]. injection S as <-.
    destruct (recognition_onresult_moves transcript now w)
      as [K | [(A & P & C) | (L & P & I & Ls & D)]].
    + left. exact K.
    + right. right. left. split; [| exact A].
      destruct A as (I & Cd & _).
      split; [exact I | split; [exact Cd | left]].
      exists transcript. repeat split; assumption.
    + right. right. right. right. repeat split; assumption.
  - destruct (recognition w); [| discriminate S]. injection S as <-.
    left. apply recognition_onerror_kept.
  - destruct (recognition w); [| discriminate S]. injection S as <-.
    left. apply recognition_onend_kept.
  - destruct (speaking w) as [| said rest]; [discriminate S |]. injection S as <-.
    left. apply utter_done_kept.
  - destruct (speaking w) as [| said rest]; [discriminate S |]. injection S as <-.
    left. apply utter_done_kept.
  - destruct (nth_error (timers w) k) as [[due cb] |] eqn:T; [| discriminate S].
    destruct (Z.leb_spec due now) as [D | D]; [| discriminate S]. injection S as <-.
    destruct (runTimer_moves cb st (set_timers (dropTimer k (timers w)) w))
      as (Ts & Ls & Cs).
    right. right. right. left.
    exists k, st, due, cb.
    split; [reflexivity |]. split; [exact T |]. split; [exact D |].
    split; [exact Ts |]. split; [exact Ls |]. exact Cs.
Qed.

(* ================================================================== *)
(** ** Runs *)

Lemma run_app (a b : list (Z * Event)) (w : World) :
  run (a ++ b) w = match run a w with
                   | Some w' => run b w'
                   | None => None
                   end.
Proof.
  revert w. induction a as [| [now e] a IH]; intro w; simpl.
  - reflexivity.
  - destruct (step now e w) as [w' |]; [apply IH | reflexivity].
Qed.

Lemma run_snoc (a : list (Z * Event)) (now : Z) (e : Event) (w w' : World) :
  run (a ++ [(now, e)]) w = Some w' ->
  exists mid : World, run a w = Some mid /\ step now e mid = Some w'.
Proof.
  rewrite run_app. destruct (run a w) as [mid |]; [| discriminate].
  simpl. destruct (step now e mid) as [v |] eqn:S; [| discriminate].
  intro E. injection E as <-. exists mid. split; [reflexivity | exact S].
Qed.

Lemma continues_run (w w' : World) (events : list (Z * Event)) :
  continues w events w' -> run events w = Some w'.
Proof.
  induction 1 as [w | w w' w'' now e rest S _ _ IH | w w' w'' now e rest S _ _ _ _ IH];
    simpl; [reflexivity | rewrite S; exact IH | rewrite S; exact IH].
Qed.

Lemma continues_snoc_same (w w' w'' : World) (events : list (Z * Event))
    (now : Z) (e : Event) :
  continues w events w' ->
  step now e w' = Some w'' ->
  currentState w'' = currentState w' ->
  continues w (events ++ [(now, e)]) w''.
Proof.
  intros C S E. induction C as [w | w v w' t x rest Sx Ex _ IH | w v w' t x rest Sx A Ax L _ IH].
  - simpl. eapply continues_same; [exact S | exact E | apply continues_done].
  - simpl. eapply continues_same; [exact Sx | exact Ex | apply IH; assumption].
  - simpl. eapply continues_advance; [exact Sx | exact A | exact Ax | exact L |].
    apply IH; assumption.
Qed.

Lemma continues_snoc_advance (w w' w'' : World) (events : list (Z * Event))
    (now : Z) (e : Event) :
  continues w events w' ->
  step now e w' = Some w'' ->
  currentState w' = ACTIVATED ->
  autoAdvance now e w' ->
  currentState w'' = LISTENING_FOR_COMMAND ->
  continues w (events ++ [(now, e)]) w''.
Proof.
  intros C S A Au L.
  induction C as [w | w v w' t x rest Sx Ex _ IH | w v w' t x rest Sx Ax Aux Lx _ IH].
  - simpl. eapply continues_advance;
      [exact S | exact A | exact Au | exact L | apply continues_done].
  - simpl. eapply continues_same; [exact Sx | exact Ex | apply IH; assumption].
  - simpl. eapply continues_advance; [exact Sx | exact Ax | exact Aux | exact Lx |].
    apply IH; assumption.
Qed.

(** Along [continues], LISTENING_FOR_COMMAND can only have been reached by
    the greeting timer firing in ACTIVATED. *)
Lemma continues_listening (w w' : World) (events : list (Z * Event)) :
  continues w events w' ->
  currentState w = ACTIVATED ->
  currentState w' = LISTENING_FOR_COMMAND ->
  exists (mid rest : list (Z * Event)) (now : Z) (e : Event) (wa wb : World),
    events = (mid ++ (now, e) :: rest)%list
    /\ continues w mid wa
    /\ currentState wa = ACTIVATED
    /\ autoAdvance now e wa
    /\ step now e wa = Some wb
    /\ currentState wb = LISTENING_FOR_COMMAND
    /\ continues wb rest w'.
Proof.
  induction 1 as [w | w v w' t x rest Sx Ex C IH | w v w' t x rest Sx Ax Aux Lx C _];
    intros A L.
  - rewrite A in L. discriminate L.
  - rewrite <- Ex in A.
    destruct (IH A L) as (mid & rest' & now & e & wa & wb & E & Cm & Aa & Au & S & Lb & Cr).
    exists ((t, x) :: mid), rest', now, e, wa, wb. subst rest.
    repeat split; try assumption.
    eapply continues_same; [exact Sx | exact Ex | exact Cm].
  - exists [], rest, t, x, w, v.
    repeat split; try assumption. apply continues_done.
Qed.

(* ================================================================== *)
(** ** The greeting timer *)

Lemma dropTimer_split (ts : list (Z * Timer)) (k : nat) (x : Z * Timer) :
  nth_error ts k = Some x ->
  exists l1 l2 : list (Z * Timer),
    ts = (l1 ++ x :: l2)%list /\ dropTimer k ts = (l1 ++ l2)%list.
Proof.
  revert ts. induction k as [| k IH]; intros [| y ts] N; try discriminate N.
  - injection N as ->. exists [], ts. split; reflexivity.
  - destruct (IH ts N) as (l1 & l2 & E & D).
    exists (y :: l1), l2. split.
    + simpl. rewrite <- E. reflexivity.
    + unfold dropTimer in *. simpl. simpl in D. rewrite D. reflexivity.
Qed.

Lemma advanceDues_drop_other (ts : list (Z * Timer)) (k : nat) (due : Z) (cb : Timer) :
  nth_error ts k = Some (due, cb) ->
  cb <> ListenAfterGreeting ->
  advanceDues (dropTimer k ts) = advanceDues ts.
Proof.
  intros N C. destruct (dropTimer_split ts k _ N) as (l1 & l2 & E & D).
  rewrite D, E, !advanceDues_app. simpl.
  destruct cb; try reflexivity. exfalso. apply C. reflexivity.
Qed.

Lemma advanceDues_single (ts : list (Z * Timer)) (k : nat) (due d : Z) :
  nth_error ts k = Some (due, ListenAfterGreeting) ->
  advanceDues ts = [d] ->
  due = d /\ advanceDues (dropTimer k ts) = [].
Proof.
  intros N S. destruct (dropTimer_split ts k _ N) as (l1 & l2 & E & D).
  rewrite D, advanceDues_app. rewrite E, advanceDues_app in S. simpl in S.
  destruct (advanceDues l1) as [| a l]; simpl in S.
  - injection S as -> ->. split; reflexivity.
  - injection S as _ S. destruct l; discriminate S.
Qed.

Lemma advanceDues_none (ts : list (Z * Timer)) (k : nat) (due : Z) :
  nth_error ts k = Some (due, ListenAfterGreeting) ->
  advanceDues ts <> [].
Proof.
  intros N S. destruct (dropTimer_split ts k _ N) as (l1 & l2 & E & _).
  rewrite E, advanceDues_app in S. simpl in S.
  destruct (advanceDues l1); discriminate S.
Qed.

Lemma Timer_is_advance (cb : Timer) :
  cb = ListenAfterGreeting \/ cb <> ListenAfterGreeting.
Proof. destruct cb; (left; reflexivity) || (right; discriminate). Qed.

(** One callback keeps the greeting-timer invariant. *)
Lemma step_advanceInv (now : Z) (e : Event) (w w' : World) :
  advanceInv w -> step now e w = Some w' -> advanceInv w'.
Proof.
  unfold advanceInv. intros I S.
  destruct (step_cases now e w w' S)
    as [(Ks & Kl & Kd) | [(U & Id & Ls & D) | [(_ & A) | [T | (L & Id & Ls & D)]]]].
  - rewrite Ks, Kl, Kd. exact I.
  - rewrite D, I, U, Id. reflexivity.
  - destruct A as (Id & _ & Ac & La & D).
    rewrite D, I, Id, Ac, La. reflexivity.
  - destruct T as (k & st & due & cb & E & N & _ & Ts & Ls & Cs). subst e.
    rewrite Ts, Ls.
    destruct (Timer_is_advance cb) as [-> | Other].
    + destruct (STATE_eqb (currentState w) ACTIVATED) eqn:A.
      * apply STATE_eqb_eq in A.
        destruct (advanceDues_single _ k due _ N I) as (_ & Gone).
        rewrite Gone.
        destruct Cs as [Same | (_ & _ & L)].
        -- exfalso.
           (* the greeting timer always advances from ACTIVATED *)
           simpl in S. rewrite N in S.
           destruct (due <=? now); [| discriminate S].
           injection S as <-.
           cbn [runTimer currentState set_timers] in Same.
           rewrite A in Same. simpl in Same. discriminate Same.
        -- rewrite L. reflexivity.
      * exfalso. exact (advanceDues_none _ k due N I).
    + rewrite (advanceDues_drop_other _ k due cb N Other), I.
      destruct Cs as [Same | (CB & _)].
      * rewrite Same. reflexivity.
      * exfalso. apply Other. exact CB.
  - rewrite D, I, L, Id. reflexivity.
Qed.

Lemma run_advanceInv (events : list (Z * Event)) (w w' : World) :
  advanceInv w -> run events w = Some w' -> advanceInv w'.
Proof.
  revert w. induction events as [| [now e] events IH]; intros w I R; simpl in R.
  - injection R as <-. exact I.
  - destruct (step now e w) as [v |] eqn:S; [| discriminate R].
    exact (IH v (step_advanceInv now e w v I S) R).
Qed.

Lemma boot_advanceInv : advanceInv boot.
Proof. reflexivity. Qed.

(** Along [continues] the cooldown stamp does not move. *)
Lemma continues_lastActivationTime (w w' : World) (events : list (Z * Event)) :
  continues w events w' -> lastActivationTime w' = lastActivationTime w.
Proof.
  induction 1 as [w | w v w' t x rest Sx Ex _ IH | w v w' t x rest Sx Ax _ Lx _ IH].
  - reflexivity.
  - rewrite IH.
    destruct (step_cases t x w v Sx)
      as [(_ & Kl & _) | [(U & Id & _) | [(_ & A) | [T | (L & Id & _)]]]].
    + exact Kl.
    + rewrite U, Id in Ex. discriminate Ex.
    + destruct A as (Id & _ & Ac & _). rewrite Id, Ac in Ex. discriminate Ex.
    + destruct T as (_ & _ & _ & _ & _ & _ & _ & _ & Ls & _). exact Ls.
    + rewrite L, Id in Ex. discriminate Ex.
  - rewrite IH.
    destruct (step_cases t x w v Sx)
      as [(Ks & _) | [(U & _) | [(_ & A) | [T | (L & _)]]]].
    + rewrite Ax, Lx in Ks. discriminate Ks.
    + rewrite Ax in U. discriminate U.
    + destruct A as (Id & _). rewrite Ax in Id. discriminate Id.
    + destruct T as (_ & _ & _ & _ & _ & _ & _ & _ & Ls & _). exact Ls.
    + rewrite Ax in L. discriminate L.
Qed.

(* ================================================================== *)
(** ** The cooldown gate *)


(** C10: the source tag reaches nothing but the text of a log line.  Two calls
    of [activate] that differ only in the tag leave the same variables, timers
    and speech queue, the same effects up to the text of log lines, and the
    same outcome. *)
Theorem activate_source_only_logged (source1 source2 : string) (now : Z) (w : World) :
  sameState (activate source1 now w) (activate source2 now w)
  /\ currentState (activate source1 now w) = currentState (activate source2 now w)
  /\ lastActivationTime (activate source1 now w)
     = lastActivationTime (activate source2 now w)
  /\ map eraseLogText (output (activate source1 now w))
     = map eraseLogText (output (activate source2 now w))
  /\ (succeeded now w (activate source1 now w)
      <-> succeeded now w (activate source2 now w)).
Proof.
  assert (S : sameState (activate source1 now w) (activate source2 now w)
              /\ map eraseLogText (output (activate source1 now w))
                 = map eraseLogText (output (activate source2 now w))).
  { unfold activate.
    destruct (now - lastActivationTime w <? ACTIVATION_COOLDOWN);
      [split; reflexivity |].
    destruct (negb (STATE_eqb (currentState w) IDLE)); [split; reflexivity |].
    split.
    - reflexivity.
    - simpl. rewrite !map_app. reflexivity. }
  destruct S as [S O].
  assert (C : currentState (activate source1 now w)
              = currentState (activate source2 now w))
    by exact (f_equal currentState S).
  assert (L : lastActivationTime (activate source1 now w)
              = lastActivationTime (activate source2 now w))
    by exact (f_equal lastActivationTime S).
  split; [exact S |]. split; [exact C |]. split; [exact L |]. split; [exact O |].
  unfold succeeded. rewrite C, L. split; intro X; exact X.
Qed.

(* ================================================================== *)
(** ** Start button *)

(** C9: a second system start while the machine is not UNINITIALIZED does
    nothing at all: the world, trace included, is the one it was given. *)
Theorem start_again_is_noop (nameInput : option string)
    (cameraGranted speechSupported ctorThrows startThrows : bool)
    (now : Z) (w : World) :
  currentState w <> UNINITIALIZED ->
  startBtn_onclick nameInput cameraGranted speechSupported ctorThrows startThrows w = w
  /\ step now (Click nameInput cameraGranted speechSupported ctorThrows startThrows) w
     = Some w.
Proof.
  intro N. apply STATE_eqb_neq in N.
  assert (E : startBtn_onclick nameInput cameraGranted speechSupported
                ctorThrows startThrows w = w).
  { unfold startBtn_onclick. rewrite N. reflexivity. }
  split; [exact E | simpl; rewrite E; reflexivity].
Qed.

(* ================================================================== *)
(** ** Speech coordinator *)

(** C5: while [recognitionPaused] is true every recognition result is
    dropped at the guard: the callback leaves a console line and nothing
    else.  However many results arrive, the world afterwards is the world
    before with one such line per result: nothing was logged as heard, no
    activation and no command ran, and the flag is still set. *)
Theorem paused_drops_every_result (results : list (Z * string)) (w : World) :
  recognitionPaused w = true ->
  (forall (transcript : string) (now : Z),
     recognition_onresult transcript now w = emit ignoredLine w)
  /\ (recognition w = true ->
      run (resultEvents results) w
      = Some (set_output (output w ++ repeat ignoredLine (List.length results)) w)).
Proof.
  intro P. split.
  { intros transcript now. unfold recognition_onresult. rewrite P. reflexivity. }
  intro R. revert w R P.
  induction results as [| [now transcript] results IH]; intros w R P.
  - simpl. rewrite app_nil_r, set_output_same. reflexivity.
  - change (run (resultEvents ((now, transcript) :: results)) w)
      with (match step now (OnResult transcript) w with
            | Some w' => run (resultEvents results) w'
            | None => None
            end).
    assert (S : step now (OnResult transcript) w = Some (emit ignoredLine w)).
    { simpl. rewrite R. unfold recognition_onresult. rewrite P. reflexivity. }
    rewrite S, (IH (emit ignoredLine w) R P).
    simpl. rewrite <- app_assoc. reflexivity.
Qed.


(* ================================================================== *)
(** ** Command capture *)

(** C8: an utterance that reaches the machine in LISTENING_FOR_COMMAND first
    takes it back to IDLE and only then runs the command table, once, on the
    lower-cased, trimmed text. *)
Theorem command_after_return_to_idle (transcript : string) (now : Z) (w : World) :
  recognitionPaused w = false ->
  currentState w = LISTENING_FOR_COMMAND ->
  exists (idle : World) (before after : list Effect),
    currentState idle = IDLE
    /\ idle = transitionTo IDLE
                (log ("Heard: " ++ dquote ++ trim (toLowerCase transcript) ++ dquote) w)
    /\ recognition_onresult transcript now w
       = handleCommand (trim (toLowerCase transcript)) now idle
    /\ output idle = (output w ++ before)%list
    /\ filter isProcessing before = []
    /\ output (recognition_onresult transcript now w)
       = (output idle ++ Log (processingLine (trim (toLowerCase transcript))) :: after)%list
    /\ filter isProcessing after = []
    /\ currentState (recognition_onresult transcript now w) = IDLE.
Proof.
  intros P L.
  set (text := trim (toLowerCase transcript)).
  set (idle := transitionTo IDLE (log ("Heard: " ++ dquote ++ text ++ dquote) w)).
  assert (E : recognition_onresult transcript now w = handleCommand text now idle).
  { unfold recognition_onresult. rewrite P. fold text. cbv zeta.
    rewrite !currentState_log, L. reflexivity. }
  destruct (handleCommand_effects text now idle) as ((after & O & F) & _ & (C & _)).
  exists idle, [Log ("Heard: " ++ dquote ++ text ++ dquote);
                Console ("State: " ++ showSTATE (currentState w) ++ " → "
                         ++ showSTATE IDLE);
                Status "IDLE" "idle"; CommandListHidden false], after.
  rewrite E.
  split; [apply currentState_transitionTo |].
  split; [reflexivity |].
  split; [reflexivity |].
  split.
  { unfold idle, transitionTo, log, emit. cbn [output set_output set_currentState].
    rewrite <- !app_assoc. reflexivity. }
  split; [reflexivity |].
  split; [exact O |].
  split; [exact F |].
  rewrite C. apply currentState_transitionTo.
Qed.

(* ================================================================== *)
(** ** Where the script departs from its comments *)

(** Big motion while armed (app.js 203-210): the first branch is taken and
    its body skipped, so nothing changes; the count is not reset. *)
Lemma big_motion_while_armed (motionLevel now : Z) (w : World) :
  palmDetectionActive w = true ->
  MOTION_THRESHOLD < motionLevel ->
  classifyMotion motionLevel now w = w.
Proof.
  intros P B. unfold classifyMotion.
  destruct (Z.gtb_spec motionLevel MOTION_THRESHOLD) as [_ | C]; [| lia].
  rewrite P. reflexivity.
Qed.

(** The "big motion again" branch (app.js 233-237) runs at exactly 3000. *)
Lemma threshold_motion_while_armed (now : Z) (w : World) :
  palmDetectionActive w = true ->
  classifyMotion MOTION_THRESHOLD now w
  = log "Palm detected - hold still..." (set_stableFrameCount 0 w).
Proof.
  intro P. unfold classifyMotion. rewrite P. reflexivity.
Qed.

(** The idle reset (app.js 241-247) tests the level of the frame that
    scheduled it: once scheduled, it disarms an armed detector whatever the
    frames since then showed. *)
Lemma palm_reset_uses_stale_level (motionLevel : Z) (startThrows : bool) (w : World) :
  palmDetectionActive w = true ->
  motionLevel < 100 ->
  runTimer (PalmReset motionLevel) startThrows w
  = emit (WaveActive false) (set_stableFrameCount 0 (set_palmDetectionActive false w)).
Proof.
  intros P M. simpl. rewrite P.
  destruct (Z.ltb_spec motionLevel 100) as [_ | C]; [reflexivity | lia].
Qed.

(** "not-allowed" itself schedules nothing, but the session end that follows
    schedules the restart whenever the system is initialised (app.js 123-129). *)
Lemma onend_restarts_after_not_allowed (t1 t2 : Z) (w : World) :
  currentState w <> UNINITIALIZED ->
  timers (recognition_onerror "not-allowed" t1 w) = timers w
  /\ isRecognitionActive (recognition_onerror "not-allowed" t1 w) = false
  /\ currentState (recognition_onerror "not-allowed" t1 w) = currentState w
  /\ timers (recognition_onend t2 (recognition_onerror "not-allowed" t1 w))
     = (timers w ++ [(t2 + 100, RestartRecognition)])%list.
Proof.
  intro N. apply STATE_eqb_neq in N.
  repeat split.
  unfold recognition_onend, restartRecognition. cbv zeta.
  cbn [currentState isRecognitionActive set_isRecognitionActive recognition_onerror
       String.eqb Ascii.eqb Bool.eqb emit set_output log].
  rewrite N. reflexivity.
Qed.

(* ================================================================== *)
(** ** The activation state machine *)

(** C2: whatever events the browser delivers from start-up, the machine is in
    ACTIVATED or LISTENING_FOR_COMMAND only after a wake-word utterance or a
    confirmed palm gesture that arrived in IDLE with the cooldown elapsed, at
    some time [now]; from there on the state changed only by the greeting
    timer firing while the state was still ACTIVATED; and
    LISTENING_FOR_COMMAND was entered by exactly such a firing, of the timer
    that activation set for [now + 2500]. *)
Theorem engaged_only_after_accepted_trigger (events : list (Z * Event)) (w : World) :
  run events boot = Some w ->
  engaged w = true ->
  exists (pre post : list (Z * Event)) (now : Z) (e : Event) (w0 w1 : World),
    events = (pre ++ (now, e) :: post)%list
    /\ run pre boot = Some w0
    /\ accepted now e w0
    /\ step now e w0 = Some w1
    /\ currentState w1 = ACTIVATED
    /\ continues w1 post w
    /\ lastActivationTime w = now
    /\ (currentState w = LISTENING_FOR_COMMAND ->
        exists (mid rest : list (Z * Event)) (now' : Z) (k : nat)
               (startThrows : bool) (wa wb : World),
          post = (mid ++ (now', Timeout k startThrows) :: rest)%list
          /\ continues w1 mid wa
          /\ currentState wa = ACTIVATED
          /\ nth_error (timers wa) k = Some (now + 2500, ListenAfterGreeting)
          /\ now + 2500 <= now'
          /\ step now' (Timeout k startThrows) wa = Some wb
          /\ currentState wb = LISTENING_FOR_COMMAND
          /\ continues wb rest w).
Proof.
  intros R G.
  assert (Core : exists (pre post : list (Z * Event)) (now : Z) (e : Event)
                        (w0 w1 : World),
             events = (pre ++ (now, e) :: post)%list
             /\ run pre boot = Some w0
             /\ accepted now e w0
             /\ step now e w0 = Some w1
             /\ currentState w1 = ACTIVATED
             /\ lastActivationTime w1 = now
             /\ continues w1 post w).
  { revert w R G. induction events as [| [t x] events IH] using rev_ind; intros w R G.
    - simpl in R. injection R as <-. discriminate G.
    - destruct (run_snoc events t x boot w R) as (prev & Rp & S).
      assert (Extend : forall (Gp : engaged prev = true)
                (Next : continues prev [(t, x)] w),
                 exists (pre post : list (Z * Event)) (now : Z) (e : Event)
                        (w0 w1 : World),
                   (events ++ [(t, x)])%list = (pre ++ (now, e) :: post)%list
                   /\ run pre boot = Some w0
                   /\ accepted now e w0
                   /\ step now e w0 = Some w1
                   /\ currentState w1 = ACTIVATED
                   /\ lastActivationTime w1 = now
                   /\ continues w1 post w).
      { intros Gp Next.
        destruct (IH prev Rp Gp)
          as (pre & post & now & e & w0 & w1 & Ev & R0 & Acc & S1 & A1 & L1 & C).
        exists pre, (post ++ [(t, x)])%list, now, e, w0, w1.
        refine (conj _ (conj R0 (conj Acc (conj S1 (conj A1 (conj L1 _)))))).
        - rewrite Ev, <- app_assoc. reflexivity.
        - inversion Next as [| a b c n y r Sy Ey Cy | a b c n y r Sy Ay Auy Ly Cy]; subst.
          + inversion Cy; subst.
            eapply continues_snoc_same; eassumption.
          + inversion Cy; subst.
            eapply continues_snoc_advance; eassumption. }
      destruct (step_cases t x prev w S)
        as [(Ks & _) | [(U & I & _) | [(Acc & A) | [T | (L & I & _)]]]].
      + assert (Gp : engaged prev = true) by (unfold engaged in *; rewrite <- Ks; exact G).
        destruct (Extend Gp) as (pre & post & now & e & w0 & w1 & F).
        { eapply continues_same; [exact S | exact Ks | apply continues_done]. }
        exists pre, post, now, e, w0, w1. exact F.
      + unfold engaged in G. rewrite I in G. discriminate G.
      + exists events, [], t, x, prev, w.
        destruct A as (_ & _ & Ac & La & _).
        exact (conj eq_refl (conj Rp (conj Acc (conj S (conj Ac
                 (conj La (continues_done w))))))).
      + destruct T as (k & st & due & cb & E & N & D & _ & _ & [Same | (CB & A & L)]).
        * assert (Gp : engaged prev = true)
            by (unfold engaged in *; rewrite <- Same; exact G).
          destruct (Extend Gp) as (pre & post & now & e & w0 & w1 & F).
          { eapply continues_same; [exact S | exact Same | apply continues_done]. }
          exists pre, post, now, e, w0, w1. exact F.
        * assert (Gp : engaged prev = true) by (unfold engaged; rewrite A; reflexivity).
          destruct (Extend Gp) as (pre & post & now & e & w0 & w1 & F).
          { eapply continues_advance;
              [exact S | exact A | | exact L | apply continues_done].
            subst cb. exists k, st, due. repeat split; assumption. }
          exists pre, post, now, e, w0, w1. exact F.
      + unfold engaged in G. rewrite I in G. discriminate G. }
  destruct Core as (pre & post & now & e & w0 & w1 & Ev & R0 & Acc & S1 & A1 & L1 & C).
  exists pre, post, now, e, w0, w1.
  assert (Lw : lastActivationTime w = now).
  { rewrite (continues_lastActivationTime w1 w post C). exact L1. }
  refine (conj Ev (conj R0 (conj Acc (conj S1 (conj A1 (conj C (conj Lw _))))))).
  intro L.
  destruct (continues_listening w1 w post C A1 L)
    as (mid & rest & now' & e' & wa & wb & Ep & Cm & Aa & (k & st & due & Ee & N & D)
        & Sa & Lb & Cr).
  subst e'.
  assert (Ra : run (pre ++ (now, e) :: mid) boot = Some wa).
  { rewrite run_app, R0. simpl. rewrite S1. exact (continues_run w1 wa mid Cm). }
  pose proof (run_advanceInv _ boot wa boot_advanceInv Ra) as Inv.
  unfold advanceInv in Inv. rewrite Aa in Inv. simpl in Inv.
  destruct (advanceDues_single _ k due _ N Inv) as (Due & _).
  rewrite (continues_lastActivationTime w1 wa mid Cm), L1 in Due. subst due.
  exists mid, rest, now', k, st, wa, wb.
  exact (conj Ep (conj Cm (conj Aa (conj N (conj D (conj Sa (conj Lb Cr))))))).
Qed.

End Script.

(* ================================================================== *)
(** ** Closed runs *)

Lemma motion_levels :
  motionLevelOf bright dark = Some 4000
  /\ motionLevelOf brightShifted bright = Some 50
  /\ motionLevelOf bright brightShifted = Some 50
  /\ motionLevelOf dark bright = Some 4000
  /\ motionLevelOf darkShifted dark = Some 50
  /\ motionLevelOf dark darkShifted = Some 50
  /\ motionLevelOf dark brightShifted = Some 4050.
Proof. vm_compute. repeat split. Qed.

(** C3, on the code: the frames "[4000], [50] x 10, [4000], [50] x 20"
    (after a first frame to compare with), one world per event.  The second
    burst leaves the stable-frame count at 10 instead of resetting it, so the
    gesture is confirmed on the 10th stable frame after it, not on the 20th;
    the sequence confirms one gesture. *)
Theorem second_burst_keeps_partial_count :
  map palmView
    (history plainHost
       (startUp ++ frameEvents 10000 33 (twoBursts ++ alternate 10 darkShifted dark))
       boot)
  = ([ (IDLE, false, 0, 0%nat); (IDLE, false, 0, 0%nat); (IDLE, false, 0, 0%nat);
       (IDLE, false, 0, 0%nat);
       (IDLE, true, 0, 0%nat);
       (IDLE, true, 1, 0%nat); (IDLE, true, 2, 0%nat); (IDLE, true, 3, 0%nat);
       (IDLE, true, 4, 0%nat); (IDLE, true, 5, 0%nat); (IDLE, true, 6, 0%nat);
       (IDLE, true, 7, 0%nat); (IDLE, true, 8, 0%nat); (IDLE, true, 9, 0%nat);
       (IDLE, true, 10, 0%nat);
       (IDLE, true, 10, 0%nat);
       (IDLE, true, 11, 0%nat); (IDLE, true, 12, 0%nat); (IDLE, true, 13, 0%nat);
       (IDLE, true, 14, 0%nat); (IDLE, true, 15, 0%nat); (IDLE, true, 16, 0%nat);
       (IDLE, true, 17, 0%nat); (IDLE, true, 18, 0%nat); (IDLE, true, 19, 0%nat);
       (ACTIVATED, false, 0, 1%nat) ]
     ++ repeat (ACTIVATED, false, 0, 1%nat) 10)%list.
Proof. vm_compute. reflexivity. Qed.



(** C4, on the code, one world per event: a "not-allowed" error marks the
    session inactive, leaves [currentState] alone and schedules nothing; the
    session-end callback that follows it schedules the 100 ms restart; and
    that timer calls [recognition.start()] a second time. *)
Theorem not_allowed_is_restarted_by_onend :
  map sessionView
    (history plainHost
       (startUp ++ [(5000, OnError "not-allowed"); (5001, OnEnd);
                    (5101, Timeout 0 false)])
       boot)
  = [ (IDLE, false, [], 1%nat);
      (IDLE, true, [], 1%nat);
      (IDLE, true, [], 1%nat);
      (IDLE, false, [], 1%nat);
      (IDLE, false, [(5101, RestartRecognition)], 1%nat);
      (IDLE, false, [], 2%nat) ].
Proof. vm_compute. reflexivity. Qed.


(** C7, on the code: the detector is armed, one quiet frame (motion 50, at
    10200) schedules the reset, and every later frame shows motion of 4000 or
    more.  At 13200 the reset still disarms the detector: its callback tests
    the motion level of the frame that scheduled it.  (The last two worlds
    of the run.) *)
Theorem idle_reset_ignores_renewed_motion :
  map resetView
    (skipn 33
       (history plainHost
          (startUp
           ++ frameEvents 10000 100
                ([dark; bright; brightShifted] ++ alternate 14 dark bright)
           ++ [(13200, Timeout 0 false)])
          boot))
  = [ (true, 1, [(13200, PalmReset 50)]);
      (false, 0, []) ].
Proof. vm_compute. reflexivity. Qed.

(* ================================================================== *)
(** ** The theorems at concrete inputs *)

Lemma engaged_only_after_accepted_trigger_witness :
  exists w : World,
    run plainHost
      (startUp ++ [(10000, OnResult "Control"); (11500, UtterEnd);
                   (12500, Timeout 0 false)]) boot = Some w
    /\ engaged w = true
    /\ currentState w = LISTENING_FOR_COMMAND
    /\ exists (pre post : list (Z * Event)) (now : Z) (e : Event) (w0 w1 : World),
         (startUp ++ [(10000, OnResult "Control"); (11500, UtterEnd);
                      (12500, Timeout 0 false)])%list
         = (pre ++ (now, e) :: post)%list
         /\ run plainHost pre boot = Some w0
         /\ accepted now e w0
         /\ step plainHost now e w0 = Some w1
         /\ currentState w1 = ACTIVATED
         /\ continues plainHost w1 post w
         /\ lastActivationTime w = now
         /\ exists (mid rest : list (Z * Event)) (now' : Z) (k : nat)
                   (startThrows : bool) (wa : World),
              post = (mid ++ (now', Timeout k startThrows) :: rest)%list
              /\ currentState wa = ACTIVATED
              /\ nth_error (timers wa) k = Some (now + 2500, ListenAfterGreeting)
              /\ now + 2500 <= now'.
Proof.
  eexists.
  split; [vm_compute; reflexivity |].
  split; [reflexivity |].
  split; [reflexivity |].
  match goal with
  | |- context [continues plainHost _ _ ?w] =>
      destruct (engaged_only_after_accepted_trigger plainHost
                  (startUp ++ [(10000, OnResult "Control"); (11500, UtterEnd);
                               (12500, Timeout 0 false)]) w)
        as (pre & post & now & e & w0 & w1 & Ev & R0 & Acc & S1 & A1 & C & Lw & Adv)
  end.
  - vm_compute. reflexivity.
  - reflexivity.
  - destruct (Adv eq_refl)
      as (mid & rest & now' & k & st & wa & wb & Ep & _ & Aa & N & D & _).
    exists pre, post, now, e, w0, w1.
    refine (conj Ev (conj R0 (conj Acc (conj S1 (conj A1 (conj C (conj Lw _))))))).
    exists mid, rest, now', k, st, wa.
    exact (conj Ep (conj Aa (conj N D))).
Defined.

Lemma paused_drops_every_result_witness :
  exists w : World,
    run plainHost (startUp ++ [(10000, OnResult "Control")]) boot = Some w
    /\ recognition w = true
    /\ recognitionPaused w = true
    /\ recognition_onresult plainHost "open music" 10600 w = emit ignoredLine w
    /\ run plainHost
         (resultEvents [(10500, "control"); (10600, "open music"); (10700, "help")]) w
       = Some (set_output (output w ++ [ignoredLine; ignoredLine; ignoredLine]) w).
Proof.
  eexists.
  split; [vm_compute; reflexivity |].
  split; [reflexivity |].
  split; [reflexivity |].
  match goal with
  | |- context [emit ignoredLine ?w] =>
      destruct (paused_drops_every_result plainHost
                  [(10500, "control"); (10600, "open music"); (10700, "help")]
                  w eq_refl) as (One & All)
  end.
  split; [exact (One "open music" 10600) | exact (All eq_refl)].
Defined.


(** The round trip of the claim: "open music" delivered in
    LISTENING_FOR_COMMAND with the recogniser unmuted. *)
Lemma command_after_return_to_idle_witness :
  exists w : World,
    run plainHost
      (startUp ++ [(10000, OnResult "Control"); (11500, UtterEnd);
                   (12500, Timeout 0 false); (14500, Timeout 0 false)]) boot = Some w
    /\ recognitionPaused w = false
    /\ currentState w = LISTENING_FOR_COMMAND
    /\ exists (idle : World) (after : list Effect),
         currentState idle = IDLE
         /\ recognition_onresult plainHost "Open Music" 16000 w
            = handleCommand plainHost "open music" 16000 idle
         /\ output (recognition_onresult plainHost "Open Music" 16000 w)
            = (output idle ++ Log (processingLine "open music") :: after)%list
         /\ filter isProcessing after = []
         /\ currentState (recognition_onresult plainHost "Open Music" 16000 w) = IDLE.
Proof.
  eexists.
  split; [vm_compute; reflexivity |].
  split; [reflexivity |].
  split; [reflexivity |].
  match goal with
  | |- context [recognition_onresult plainHost _ _ ?w] =>
      destruct (command_after_return_to_idle plainHost "Open Music" 16000 w
                  eq_refl eq_refl)
        as (idle & before & after & I & _ & E & _ & _ & O & F & C)
  end.
  exists idle, after.
  exact (conj I (conj E (conj O (conj F C)))).
Defined.

Lemma start_again_is_noop_witness :
  currentState online <> UNINITIALIZED
  /\ startBtn_onclick (Some "Ann") true true false false online = online
  /\ step plainHost 2000 (Click (Some "Ann") true true false false) online
     = Some online.
Proof.
  assert (N : currentState online <> UNINITIALIZED) by discriminate.
  split; [exact N |].
  exact (start_again_is_noop plainHost (Some "Ann") true true false false 2000 online N).
Defined.
